(** * The workshop servers of deepl-mcp-server: a shallow embedding

    Two Python files are modelled here, each in a module of its own:

    - [Jokes]: [workshops/jokes-python/jokes.py], four tools over the
      public joke HTTP API;
    - [DeeplSimple]: [workshops/deepl-simple-python/deepl-simple.py],
      four tools over the translation vendor's SDK.

    Module [Py] holds what both need of Python itself: the values
    [response.json()] produces, subscripting, the exceptions a statement
    can raise, and a small monad that threads the log of outbound calls
    through a handler. *)

From Stdlib Require Import ZArith String Ascii List Lia.
From Stdlib Require Import DecimalString DecimalPos DecimalZ.
From stdpp Require Import base option list gmap strings.

Set Warnings "-register-all".
Open Scope string_scope.
Open Scope list_scope.
Open Scope Z_scope.

(* ================================================================== *)
(** * Python values, subscripting and exceptions *)
(* ================================================================== *)

Module Py.

(** A Python [dict] with string keys is kept as the list of its items in
    insertion order, which is the order in which [str()] prints them and
    iteration visits them; for a decoded JSON object it is the order of
    the members in the document.  The keys of a [dict] are distinct.
    [dict_get items k] is the value bound to [k], if any. *)
Fixpoint dict_get {V : Type} (items : list (string * V)) (k : string) :
    option V :=
  match items with
  | [] => None
  | (k', v) :: rest => if String.eqb k' k then Some v else dict_get rest k
  end.

(** What [json.loads] (behind [response.json()]) builds: [None], [bool],
    [int], [float] (kept as its binary64 bit pattern, never inspected
    here), [str], [list] and [dict].  Two decoded objects with the same
    members in a different order are different values, as they are for
    [str()]. *)
Inductive json : Type :=
| JNull
| JBool (b : bool)
| JInt (n : Z)
| JFloat (bits : Z)
| JStr (s : string)
| JArr (l : list json)
| JObj (items : list (string * json)).

(** The value written between the brackets of [obj[...]]. *)
Inductive subscript : Type :=
| SubStr (s : string)
| SubInt (i : Z).

(** The exceptions the modelled statements raise.  [KeyError],
    [IndexError] and [TypeError] come from subscripting; [ValidationError]
    is pydantic's, raised when an argument breaks its declared constraint;
    [RequestException] is what [requests.get] and [response.json()] raise
    (no connection, body that is not JSON); [DeepLException] is the vendor
    SDK's. *)
Inductive pyexn : Type :=
| KeyError (k : subscript)
| IndexError
| TypeError
| ValidationError
| RequestException (msg : string)
| DeepLException (msg : string).

(** The outcome of evaluating an expression: a value, or an exception on
    its way up. *)
Inductive result (A : Type) : Type :=
| Ok (a : A)
| Raise (e : pyexn).
Arguments Ok {A} a.
Arguments Raise {A} e.

Definition rbind {A B : Type} (r : result A) (k : A -> result B) : result B :=
  match r with
  | Ok a => k a
  | Raise e => Raise e
  end.

Notation "'try!' x := r 'in' k" := (rbind r (fun x => k))
  (at level 10, x name, r at level 100, k at level 200).

(** Section 7 of the specification names three kinds of failure.  The
    code defines no exception class of its own: a failure is whatever
    Python exception the failing statement raises, and [error_kind] says
    under which of the three names each one falls. *)
Inductive ErrorKind : Type :=
| InvalidArgument
| UpstreamError
| MalformedResponse.

Definition error_kind (e : pyexn) : ErrorKind :=
  match e with
  | ValidationError => InvalidArgument
  | KeyError _ | IndexError | TypeError => MalformedResponse
  | RequestException _ | DeepLException _ => UpstreamError
  end.

(** Python's sequence indexing: a negative index counts from the end,
    and an index still outside [0, len) has no element. *)
Definition norm_index (len i : Z) : option nat :=
  let j := if i <? 0 then i + len else i in
  if (0 <=? j) && (j <? len) then Some (Z.to_nat j) else None.

(** [obj[key]] for a decoded JSON value [obj].
    - [dict]: the bound value, else [KeyError(key)]; an [int] key is
      never bound, the keys of a decoded object being strings;
    - [list]: the element, [IndexError] out of range, [TypeError] for a
      [str] index;
    - [str]: the one-character string, with the same two errors;
    - [None], [bool], [int], [float]: not subscriptable, [TypeError]. *)
Definition getitem (obj : json) (key : subscript) : result json :=
  match obj, key with
  | JObj d, SubStr s =>
      match dict_get d s with
      | Some v => Ok v
      | None => Raise (KeyError key)
      end
  | JObj _, SubInt _ => Raise (KeyError key)
  | JArr l, SubInt i =>
      match norm_index (Z.of_nat (length l)) i with
      | Some n =>
          match l !! n with
          | Some v => Ok v
          | None => Raise IndexError
          end
      | None => Raise IndexError
      end
  | JArr _, SubStr _ => Raise TypeError
  | JStr s, SubInt i =>
      match norm_index (Z.of_nat (String.length s)) i with
      | Some n =>
          match String.get n s with
          | Some c => Ok (JStr (String c EmptyString))
          | None => Raise IndexError
          end
      | None => Raise IndexError
      end
  | JStr _, SubStr _ => Raise TypeError
  | (JNull | JBool _ | JInt _ | JFloat _), _ => Raise TypeError
  end.

(** [str(n)] for an [int]: decimal digits, with a leading minus sign. *)
Definition str_of_int (n : Z) : string :=
  NilZero.string_of_int (Z.to_int n).

(** The line feed of the ["\n"] escape. *)
Definition LF : string := String (ascii_of_nat 10) EmptyString.

(** ** Handlers and the log of outbound calls

    A handler runs against the log of the outbound calls made so far and
    leaves the log extended by its own; [E] is the type of a log entry.
    An exception ends the handler and keeps the log as it stood. *)
Section Handler.
Context {E : Type}.

Definition M (A : Type) : Type := list E -> result A * list E.

Definition ret {A : Type} (a : A) : M A := fun log => (Ok a, log).

Definition raise {A : Type} (e : pyexn) : M A := fun log => (Raise e, log).

Definition bind {A B : Type} (m : M A) (k : A -> M B) : M B :=
  fun log =>
    match m log with
    | (Ok a, log') => k a log'
    | (Raise e, log') => (Raise e, log')
    end.

(** A computation that touches no log: a plain Python expression. *)
Definition lift {A : Type} (r : result A) : M A := fun log => (r, log).

(** An outbound call: it is logged, then answers with [r]. *)
Definition outbound {A : Type} (ev : E) (r : result A) : M A :=
  fun log => (r, log ++ [ev]).
End Handler.
Arguments M E A : clear implicits.

Notation "'do!' x := m 'in' k" := (bind m (fun x => k))
  (at level 10, x name, m at level 100, k at level 200).

(** ** Facts about dictionaries, strings and decimal rendering *)

(** An item of another key, put in front, hides nothing. *)
Lemma dict_get_cons_ne {V : Type} (k k' : string) (v : V)
    (items : list (string * V)) :
  k' <> k -> dict_get ((k', v) :: items) k = dict_get items k.
Proof. intros Hk. simpl. now apply String.eqb_neq in Hk as ->. Qed.

Lemma dict_get_cons_eq {V : Type} (k : string) (v : V)
    (items : list (string * V)) :
  dict_get ((k, v) :: items) k = Some v.
Proof. simpl. now rewrite String.eqb_refl. Qed.

(** Items of another key can be removed without changing what [k] is
    bound to. *)
Lemma dict_get_filter_ne {V : Type} (k k' : string)
    (items : list (string * V)) :
  k' <> k ->
  dict_get (List.filter (fun kv => negb (String.eqb (fst kv) k')) items) k
  = dict_get items k.
Proof.
  intros Hk. induction items as [ | [k0 v0] items IH]; [reflexivity | ].
  simpl. destruct (String.eqb_spec k0 k') as [-> | Hne]; simpl.
  - apply String.eqb_neq in Hk as ->. exact IH.
  - destruct (String.eqb k0 k); [reflexivity | exact IH].
Qed.

Lemma length_append (s t : string) :
  String.length (s +:+ t) = (String.length s + String.length t)%nat.
Proof. induction s as [ | c s IH]; simpl; [reflexivity | now rewrite IH]. Qed.

(** A common suffix can be cancelled. *)
Lemma append_inj_suffix (s1 s2 t : string) :
  s1 +:+ t = s2 +:+ t -> s1 = s2.
Proof.
  revert s2. induction s1 as [ | c s1 IH]; intros [ | c2 s2] H; simpl in H.
  - reflexivity.
  - apply (f_equal String.length) in H.
    rewrite !length_append in H. simpl in H. lia.
  - apply (f_equal String.length) in H.
    rewrite !length_append in H. simpl in H. lia.
  - injection H as -> H. f_equal. now apply IH.
Qed.

(** A common prefix can be cancelled. *)
Lemma append_inj_prefix (p s1 s2 : string) :
  p +:+ s1 = p +:+ s2 -> s1 = s2.
Proof.
  induction p as [ | c p IH]; simpl; intros H; [exact H | ].
  injection H as H. now apply IH.
Qed.

(** The same members in another order make another value, though the
    lookups agree. *)
Example member_order_is_kept :
  JObj [("a", JInt 1); ("b", JInt 2)] <> JObj [("b", JInt 2); ("a", JInt 1)]
  /\ forall k,
       dict_get [("a", JInt 1); ("b", JInt 2)] k
       = dict_get [("b", JInt 2); ("a", JInt 1)] k.
Proof.
  split; [discriminate | ].
  intros k. cbn [dict_get].
  destruct (String.eqb_spec "a" k) as [<- | Ha]; [reflexivity | ].
  destruct (String.eqb_spec "b" k); reflexivity.
Qed.

(** [str] of an [int] determines the [int]. *)
Lemma str_of_int_inj (n m : Z) : str_of_int n = str_of_int m -> n = m.
Proof.
  unfold str_of_int. intros H.
  assert (Hnorm : forall z, Z.to_int z <> Decimal.Pos Decimal.Nil
                            /\ Z.to_int z <> Decimal.Neg Decimal.Nil).
  { intros [ | p | p]; simpl; split; try discriminate;
      intros [= Hp]; now apply (DecimalPos.Unsigned.to_uint_nonnil p). }
  apply DecimalZ.to_int_inj.
  apply (f_equal NilZero.int_of_string) in H.
  rewrite !NilZero.isi in H by apply Hnorm.
  now injection H.
Qed.

End Py.

(* ================================================================== *)
(** * workshops/jokes-python/jokes.py *)
(* ================================================================== *)

Module Jokes.
Import Py.

Definition API_BASE_URL : string := "https://official-joke-api.appspot.com".

(** [JOKE_TYPES = Literal["general", "knock-knock", "programming", "dad"]] *)
Definition JOKE_TYPES : list string :=
  ["general"; "knock-knock"; "programming"; "dad"].

Definition CONSISTENT_JOKE : string :=
  "What's brown and sticky?" +:+ LF +:+ "A stick! Ha ha ha ha".

(** The one outbound call of this file: [requests.get(url)]. *)
Inductive event : Type :=
| HttpGet (url : string).

(** The constraint [Field(ge=..., le=...)] that annotates an [int]
    parameter: both bounds are inclusive. *)
Record Field : Type := mkField { ge : Z; le : Z }.

Definition in_field (f : Field) (v : Z) : bool :=
  (ge f <=? v) && (v <=? le f).

(** The annotation of [get_joke_by_id]'s parameter:
    [Annotated[int, Field(ge=1, le=451)]]. *)
Definition ID_FIELD : Field := mkField 1 451.

(** Membership in a [Literal[...]] of strings: equality with one of the
    listed values. *)
Definition in_literal (allowed : list string) (v : string) : bool :=
  bool_decide (v ∈ allowed).

(** Modelled from the spec: the registry's [invoke] of section 4.1.  The
    tool-serving framework behind [@mcp.tool] is not part of the
    repository.  By the specification it checks the arguments against the
    declared signature and fails before the handler is ever called when
    the check fails; otherwise it calls the handler and returns its result
    unchanged.  [valid] is the outcome of the check of the declared
    constraint, which the source states in the parameter's annotation. *)
Definition invoke {A : Type} (valid : bool) (handler : M event A) : M event A :=
  if valid then handler else raise ValidationError.

(** A decoded value has the field [k] when it is a [dict] that binds
    [k]. *)
Definition has_field (k : string) (v : json) : bool :=
  match v with
  | JObj d => bool_decide (is_Some (dict_get d k))
  | _ => false
  end.

(** A joke record that lacks [setup] or [punchline]. *)
Definition missing_field (v : json) : Prop :=
  has_field "setup" v = false \/ has_field "punchline" v = false.

Section Server.
(** The world outside the process.  [requests_get log url] is what
    [requests.get(url)] answers after the calls of [log]: a response
    object, or an exception.  [response_json] is the [.json()] method of
    a response: the decoded body, or an exception when the body is not
    JSON. *)
Context {Response : Type}.
Variable requests_get : list event -> string -> result Response.
Variable response_json : Response -> result json.

(** What a replacement field of an f-string makes of a value that is not
    a [str]: Python's [str()] of it (["None"], ["True"], ["12"],
    ["{'a': 1}"], ...), left open here.  It is a function of the decoded
    value, which holds the members of an object in their order. *)
Variable py_str : json -> string.

(** [f"{v}"]: a [str] is inserted as it is, anything else through
    [str()]. *)
Definition format_value (v : json) : string :=
  match v with
  | JStr s => s
  | _ => py_str v
  end.

(** [[
def extract_joke(json: dict) -> str:
  return f"{json['setup']}\n{json['punchline']}"
    ]]
    The two subscripts are evaluated left to right. *)
Definition extract_joke (json : json) : result string :=
  try! setup := getitem json (SubStr "setup") in
  try! punchline := getitem json (SubStr "punchline") in
  Ok (format_value setup +:+ LF +:+ format_value punchline).

(** [requests.get(url)], logged as an outbound call. *)
Definition http_get (url : string) : M event Response :=
  fun log => outbound (HttpGet url) (requests_get log url) log.

(** [[
def get_consistent_joke() -> str:
  return CONSISTENT_JOKE
    ]] *)
Definition get_consistent_joke : M event string :=
  ret CONSISTENT_JOKE.

(** [[
def get_joke() -> str:
  response = requests.get(API_BASE_URL + '/random_joke')
  json = response.json()
  return extract_joke(json)
    ]] *)
Definition get_joke : M event string :=
  do! response := http_get (API_BASE_URL +:+ "/random_joke") in
  do! json := lift (response_json response) in
  lift (extract_joke json).

(** [[
def get_joke_by_id(id: Annotated[int, Field(ge=1, le=451)]) -> str:
  response = requests.get(f"{API_BASE_URL}/jokes/{id}")
  json = response.json()
  return extract_joke(json)
    ]] *)
Definition get_joke_by_id (id : Z) : M event string :=
  do! response := http_get (API_BASE_URL +:+ "/jokes/" +:+ str_of_int id) in
  do! json := lift (response_json response) in
  lift (extract_joke json).

(** [[
def get_joke_by_type(joke_type: JOKE_TYPES) -> str:
  response = requests.get(f"{API_BASE_URL}/jokes/{joke_type}/random")
  json = response.json()
  return extract_joke(json[0])
    ]] *)
Definition get_joke_by_type (joke_type : string) : M event string :=
  do! response :=
    http_get (API_BASE_URL +:+ "/jokes/" +:+ joke_type +:+ "/random") in
  do! json := lift (response_json response) in
  do! first := lift (getitem json (SubInt 0)) in
  lift (extract_joke first).

(** The tools as the registry serves them: the declared constraint of
    the parameter is checked, then the handler runs. *)
Definition tool_get_joke_by_id (id : Z) : M event string :=
  invoke (in_field ID_FIELD id) (get_joke_by_id id).

Definition tool_get_joke_by_type (joke_type : string) : M event string :=
  invoke (in_literal JOKE_TYPES joke_type) (get_joke_by_type joke_type).

(** ** How the handlers run *)

Definition random_joke_url : string := API_BASE_URL +:+ "/random_joke".

Definition joke_by_id_url (id : Z) : string :=
  API_BASE_URL +:+ "/jokes/" +:+ str_of_int id.

Definition joke_by_type_url (joke_type : string) : string :=
  API_BASE_URL +:+ "/jokes/" +:+ joke_type +:+ "/random".

(** Unfolds a handler down to the world's answers. *)
Ltac run_handler :=
  unfold get_joke, get_joke_by_id, get_joke_by_type, get_consistent_joke,
    bind, http_get, outbound, lift, ret, raise.

Lemma get_joke_run (log : list event) (resp : Response) (v : json) :
  requests_get log random_joke_url = Ok resp ->
  response_json resp = Ok v ->
  get_joke log = (extract_joke v, log ++ [HttpGet random_joke_url]).
Proof.
  intros Hget Hjson. run_handler.
  fold random_joke_url. rewrite Hget, Hjson. reflexivity.
Qed.

Lemma get_joke_by_id_run (id : Z) (log : list event) (resp : Response)
    (v : json) :
  requests_get log (joke_by_id_url id) = Ok resp ->
  response_json resp = Ok v ->
  get_joke_by_id id log
  = (extract_joke v, log ++ [HttpGet (joke_by_id_url id)]).
Proof.
  intros Hget Hjson. run_handler.
  fold (joke_by_id_url id). rewrite Hget, Hjson. reflexivity.
Qed.

Lemma get_joke_by_type_run (joke_type : string) (log : list event)
    (resp : Response) (r : json) :
  requests_get log (joke_by_type_url joke_type) = Ok resp ->
  response_json resp = Ok r ->
  get_joke_by_type joke_type log
  = (try! first := getitem r (SubInt 0) in extract_joke first,
     log ++ [HttpGet (joke_by_type_url joke_type)]).
Proof.
  intros Hget Hjson. run_handler.
  fold (joke_by_type_url joke_type). rewrite Hget, Hjson.
  destruct (getitem r (SubInt 0)); reflexivity.
Qed.

(** Whatever the world answers, a handler that reaches [requests.get]
    adds exactly that call to the log. *)
Lemma get_joke_by_id_log (id : Z) (log : list event) :
  snd (get_joke_by_id id log) = log ++ [HttpGet (joke_by_id_url id)].
Proof.
  run_handler. fold (joke_by_id_url id).
  destruct (requests_get log (joke_by_id_url id)) as [resp|e]; simpl;
    [destruct (response_json resp) | ]; reflexivity.
Qed.

Lemma get_joke_by_type_log (joke_type : string) (log : list event) :
  snd (get_joke_by_type joke_type log)
  = log ++ [HttpGet (joke_by_type_url joke_type)].
Proof.
  run_handler. fold (joke_by_type_url joke_type).
  destruct (requests_get log (joke_by_type_url joke_type)) as [resp|e];
    simpl; [ | reflexivity].
  destruct (response_json resp) as [r|e]; [ | reflexivity].
  destruct (getitem r (SubInt 0)); reflexivity.
Qed.

(** ** The extraction step *)

(** A subscript that fails on a decoded value fails with an exception of
    the kind [MalformedResponse]. *)
Lemma getitem_raise_kind (obj : json) (key : subscript) (e : pyexn) :
  getitem obj key = Raise e -> error_kind e = MalformedResponse.
Proof.
  unfold getitem. intros H.
  repeat match type of H with
         | context [match ?x with _ => _ end] => destruct x
         end;
    inversion H; reflexivity.
Qed.

(** [get_joke_by_type] fails in the same way when the response has no
    element 0 at all (an empty array, an object, a number). *)
Lemma get_joke_by_type_no_first (joke_type : string) (log : list event)
    (resp : Response) (r : json) (e : pyexn) :
  requests_get log (joke_by_type_url joke_type) = Ok resp ->
  response_json resp = Ok r ->
  getitem r (SubInt 0) = Raise e ->
  get_joke_by_type joke_type log
  = (Raise e, log ++ [HttpGet (joke_by_type_url joke_type)])
  /\ error_kind e = MalformedResponse.
Proof.
  intros Hget Hjson Hfirst.
  rewrite (get_joke_by_type_run joke_type log resp r Hget Hjson), Hfirst.
  split; [reflexivity | exact (getitem_raise_kind _ _ _ Hfirst)].
Qed.

Lemma extract_joke_obj (d : list (string * json)) :
  extract_joke (JObj d)
  = match dict_get d "setup", dict_get d "punchline" with
    | Some s, Some p => Ok (format_value s +:+ LF +:+ format_value p)
    | Some _, None => Raise (KeyError (SubStr "punchline"))
    | None, _ => Raise (KeyError (SubStr "setup"))
    end.
Proof.
  unfold extract_joke, getitem, rbind.
  destruct (dict_get d "setup"), (dict_get d "punchline"); reflexivity.
Qed.

Lemma extract_joke_strings (d : list (string * json)) (s p : string) :
  dict_get d "setup" = Some (JStr s) ->
  dict_get d "punchline" = Some (JStr p) ->
  extract_joke (JObj d) = Ok (s +:+ LF +:+ p).
Proof.
  intros Hs Hp. rewrite extract_joke_obj, Hs, Hp. reflexivity.
Qed.

Lemma extract_joke_not_obj (v : json) :
  (forall d, v <> JObj d) -> extract_joke v = Raise TypeError.
Proof.
  intros Hv. destruct v as [ | b | n | bits | s | l | d ]; try reflexivity.
  now destruct (Hv d).
Qed.

Lemma has_field_obj (k : string) (d : list (string * json)) :
  has_field k (JObj d) = false <-> dict_get d k = None.
Proof.
  unfold has_field. rewrite bool_decide_eq_false, <- eq_None_not_Some.
  reflexivity.
Qed.

Lemma extract_joke_missing (v : json) :
  missing_field v ->
  exists e, extract_joke v = Raise e /\ error_kind e = MalformedResponse.
Proof.
  intros Hmiss. destruct v as [ | b | n | bits | s | l | d ];
    try (exists TypeError; split; reflexivity).
  rewrite extract_joke_obj.
  destruct Hmiss as [H | H]; apply has_field_obj in H; rewrite H.
  - eexists; split; reflexivity.
  - destruct (dict_get d "setup"); eexists; split; reflexivity.
Qed.

(** ** The registry's check of the declared constraints *)

Lemma in_field_ID (id : Z) :
  in_field ID_FIELD id = true <-> 1 <= id <= 451.
Proof.
  unfold in_field, ID_FIELD; simpl.
  rewrite andb_true_iff, !Z.leb_le. reflexivity.
Qed.

Lemma in_literal_spec (allowed : list string) (v : string) :
  in_literal allowed v = true <-> v ∈ allowed.
Proof. unfold in_literal. apply bool_decide_eq_true. Qed.

Lemma invoke_rejected {A : Type} (handler : M event A) (log : list event) :
  invoke false handler log = (Raise ValidationError, log).
Proof. reflexivity. Qed.

Lemma invoke_accepted {A : Type} (handler : M event A) (log : list event) :
  invoke true handler log = handler log.
Proof. reflexivity. Qed.

(** ** The claims about the joke server *)

(** C1.  A joke record [v] that lacks [setup] or [punchline] makes the
    extraction raise an exception of the kind [MalformedResponse], and so
    does each of the three fetching handlers when the upstream answers
    with [v] (for [get_joke_by_type]: with a sequence whose first element
    is [v]).  The outcome is an exception, never a string: nothing partial
    and no default is returned.  The only outbound call is the one GET. *)
Theorem missing_field_is_malformed_response (v : json) :
  missing_field v ->
  (exists e, extract_joke v = Raise e /\ error_kind e = MalformedResponse)
  /\ (forall log resp,
        requests_get log random_joke_url = Ok resp ->
        response_json resp = Ok v ->
        exists e,
          get_joke log = (Raise e, log ++ [HttpGet random_joke_url])
          /\ error_kind e = MalformedResponse)
  /\ (forall id log resp,
        requests_get log (joke_by_id_url id) = Ok resp ->
        response_json resp = Ok v ->
        exists e,
          get_joke_by_id id log
          = (Raise e, log ++ [HttpGet (joke_by_id_url id)])
          /\ error_kind e = MalformedResponse)
  /\ (forall joke_type log resp r,
        requests_get log (joke_by_type_url joke_type) = Ok resp ->
        response_json resp = Ok r ->
        getitem r (SubInt 0) = Ok v ->
        exists e,
          get_joke_by_type joke_type log
          = (Raise e, log ++ [HttpGet (joke_by_type_url joke_type)])
          /\ error_kind e = MalformedResponse).
Proof.
  intros Hmiss.
  destruct (extract_joke_missing v Hmiss) as (e & He & Hkind).
  split; [ | split; [ | split]].
  - now exists e.
  - intros log resp Hget Hjson. exists e.
    now rewrite (get_joke_run log resp v Hget Hjson), He.
  - intros id log resp Hget Hjson. exists e.
    now rewrite (get_joke_by_id_run id log resp v Hget Hjson), He.
  - intros joke_type log resp r Hget Hjson Hfirst. exists e.
    rewrite (get_joke_by_type_run joke_type log resp r Hget Hjson), Hfirst.
    simpl. now rewrite He.
Qed.

(** C3.  Through the registry, [get_joke_by_id(id)] with [id] outside
    [1, 451] fails with an exception of the kind [InvalidArgument] and the
    log of outbound calls is left as it was: no network call was made.
    With [id] inside [1, 451] the check passes and the handler body runs:
    the outcome is the handler's, and the handler's GET of the per-id
    endpoint is in the log. *)
Theorem get_joke_by_id_range_checked (id : Z) (log : list event) :
  (id < 1 \/ 451 < id ->
   exists e,
     tool_get_joke_by_id id log = (Raise e, log)
     /\ error_kind e = InvalidArgument)
  /\ (1 <= id <= 451 ->
      tool_get_joke_by_id id log = get_joke_by_id id log
      /\ snd (tool_get_joke_by_id id log)
         = log ++ [HttpGet (joke_by_id_url id)]).
Proof.
  unfold tool_get_joke_by_id. split; intros Hid.
  - exists ValidationError. split; [ | reflexivity].
    destruct (in_field ID_FIELD id) eqn:Hin; [ | apply invoke_rejected].
    apply in_field_ID in Hin. lia.
  - apply in_field_ID in Hid. rewrite Hid, invoke_accepted.
    split; [reflexivity | apply get_joke_by_id_log].
Qed.

(** C4.  Through the registry, [get_joke_by_type(joke_type)] with a
    [joke_type] that is none of general, knock-knock, programming, dad
    fails with an exception of the kind [InvalidArgument] and no outbound
    call is logged.  For each of the four listed values the check passes:
    the outcome is the handler's, whose GET of the per-type endpoint is in
    the log. *)
Theorem get_joke_by_type_enum_checked (joke_type : string)
    (log : list event) :
  (joke_type ∉ ["general"; "knock-knock"; "programming"; "dad"] ->
   exists e,
     tool_get_joke_by_type joke_type log = (Raise e, log)
     /\ error_kind e = InvalidArgument)
  /\ (joke_type ∈ ["general"; "knock-knock"; "programming"; "dad"] ->
      tool_get_joke_by_type joke_type log = get_joke_by_type joke_type log
      /\ snd (tool_get_joke_by_type joke_type log)
         = log ++ [HttpGet (joke_by_type_url joke_type)]).
Proof.
  unfold tool_get_joke_by_type. fold JOKE_TYPES. split; intros Hty.
  - exists ValidationError. split; [ | reflexivity].
    destruct (in_literal JOKE_TYPES joke_type) eqn:Hin;
      [ | apply invoke_rejected].
    apply in_literal_spec in Hin. contradiction.
  - apply in_literal_spec in Hty. rewrite Hty, invoke_accepted.
    split; [reflexivity | apply get_joke_by_type_log].
Qed.

(** C5.  When the upstream object carries string fields [setup] and
    [punchline], the extraction, [get_joke] and [get_joke_by_id] return
    exactly the setup, one line feed, then the punchline. *)
Theorem joke_is_setup_newline_punchline (d : list (string * json))
    (setup punchline : string) :
  dict_get d "setup" = Some (JStr setup) ->
  dict_get d "punchline" = Some (JStr punchline) ->
  extract_joke (JObj d) = Ok (setup +:+ LF +:+ punchline)
  /\ (forall log resp,
        requests_get log random_joke_url = Ok resp ->
        response_json resp = Ok (JObj d) ->
        get_joke log
        = (Ok (setup +:+ LF +:+ punchline),
           log ++ [HttpGet random_joke_url]))
  /\ (forall id log resp,
        requests_get log (joke_by_id_url id) = Ok resp ->
        response_json resp = Ok (JObj d) ->
        get_joke_by_id id log
        = (Ok (setup +:+ LF +:+ punchline),
           log ++ [HttpGet (joke_by_id_url id)])).
Proof.
  intros Hs Hp.
  pose proof (extract_joke_strings d setup punchline Hs Hp) as Hex.
  split; [exact Hex | split].
  - intros log resp Hget Hjson.
    now rewrite (get_joke_run log resp _ Hget Hjson), Hex.
  - intros id log resp Hget Hjson.
    now rewrite (get_joke_by_id_run id log resp _ Hget Hjson), Hex.
Qed.

(** C6.  When the per-type endpoint answers with a one-element array,
    [get_joke_by_type] returns what the extraction makes of that element;
    for an element with string fields [setup] and [punchline] that is the
    setup, one line feed, then the punchline. *)
Theorem get_joke_by_type_extracts_first (joke_type : string)
    (log : list event) (resp : Response) (joke : json) :
  requests_get log (joke_by_type_url joke_type) = Ok resp ->
  response_json resp = Ok (JArr [joke]) ->
  get_joke_by_type joke_type log
  = (extract_joke joke, log ++ [HttpGet (joke_by_type_url joke_type)])
  /\ (forall d setup punchline,
        joke = JObj d ->
        dict_get d "setup" = Some (JStr setup) ->
        dict_get d "punchline" = Some (JStr punchline) ->
        get_joke_by_type joke_type log
        = (Ok (setup +:+ LF +:+ punchline),
           log ++ [HttpGet (joke_by_type_url joke_type)])).
Proof.
  intros Hget Hjson.
  rewrite (get_joke_by_type_run joke_type log resp _ Hget Hjson).
  split; [reflexivity | ].
  intros d setup punchline -> Hs Hp. simpl.
  now rewrite (extract_joke_strings d setup punchline Hs Hp).
Qed.

(** C9.  When the per-type endpoint answers with an empty array,
    [get_joke_by_type] returns no string: element 0 does not exist, the
    subscript raises [IndexError], and that is the handler's outcome. *)
Theorem get_joke_by_type_empty_array_raises (joke_type : string)
    (log : list event) (resp : Response) :
  requests_get log (joke_by_type_url joke_type) = Ok resp ->
  response_json resp = Ok (JArr []) ->
  getitem (JArr []) (SubInt 0) = Raise IndexError
  /\ get_joke_by_type joke_type log
     = (Raise IndexError, log ++ [HttpGet (joke_by_type_url joke_type)]).
Proof.
  intros Hget Hjson. split; [reflexivity | ].
  now rewrite (get_joke_by_type_run joke_type log resp _ Hget Hjson).
Qed.

(** C10.  The extraction depends on the fields [setup] and [punchline]
    only: two objects in which [setup] is bound to the same decoded value
    and [punchline] is (or in which the same one is missing) give the same
    outcome, whatever other fields they hold and wherever the two stand
    among them.  The same decoded value means the same down to the order
    of the members of a nested object, which [str()] shows. *)
Theorem extract_joke_reads_two_fields_only (d1 d2 : list (string * json)) :
  dict_get d1 "setup" = dict_get d2 "setup" ->
  dict_get d1 "punchline" = dict_get d2 "punchline" ->
  extract_joke (JObj d1) = extract_joke (JObj d2).
Proof.
  intros Hs Hp. rewrite !extract_joke_obj, Hs, Hp. reflexivity.
Qed.

(** A field of any other name can be added, changed or removed without
    changing the joke. *)
Lemma extract_joke_insert_other (d : list (string * json)) (k : string)
    (v : json) :
  k <> "setup" -> k <> "punchline" ->
  extract_joke (JObj ((k, v) :: d)) = extract_joke (JObj d).
Proof.
  intros Hs Hp. rewrite !extract_joke_obj.
  now rewrite !dict_get_cons_ne by done.
Qed.

Lemma extract_joke_delete_other (d : list (string * json)) (k : string) :
  k <> "setup" -> k <> "punchline" ->
  extract_joke
    (JObj (List.filter (fun kv => negb (String.eqb (fst kv) k)) d))
  = extract_joke (JObj d).
Proof.
  intros Hs Hp. rewrite !extract_joke_obj.
  now rewrite !dict_get_filter_ne by done.
Qed.

(** ** Further properties of the joke server *)

Lemma has_field_true (k : string) (v : json) :
  has_field k v = true <-> exists d a, v = JObj d /\ dict_get d k = Some a.
Proof.
  destruct v as [ | b | n | bits | s | l | d ]; simpl;
    try (split; [discriminate | intros (d' & a & [=] & _)]).
  rewrite bool_decide_eq_true. split.
  - intros [a Ha]. now exists d, a.
  - intros (d' & a & [= <-] & Ha). now exists a.
Qed.

(** The extraction succeeds exactly on an object that binds both
    [setup] and [punchline]: nothing else makes it succeed, and nothing
    about the bound values ([null], a number, a nested object) makes it
    fail. *)
Theorem extract_joke_ok_iff_both_fields (v : json) :
  (exists s, extract_joke v = Ok s)
  <-> has_field "setup" v = true /\ has_field "punchline" v = true.
Proof.
  split.
  - intros [s Hs].
    destruct (has_field "setup" v) eqn:H1;
      destruct (has_field "punchline" v) eqn:H2; try (split; reflexivity);
      exfalso;
      (assert (Hm : missing_field v) by (unfold missing_field; tauto));
      destruct (extract_joke_missing v Hm) as (e & He & _);
      congruence.
  - intros [H1 H2].
    apply has_field_true in H1 as (d & a & -> & Ha).
    apply has_field_true in H2 as (d' & b & [= <-] & Hb).
    rewrite extract_joke_obj, Ha, Hb. eauto.
Qed.

(** The extraction reports the first subscript that fails:
    [KeyError('setup')] when [setup] is missing, also when [punchline] is
    missing too; [KeyError('punchline')] when only [punchline] is; and
    [TypeError] when the value is no object at all. *)
Theorem extract_joke_failure_modes (v : json) :
  (forall d, v = JObj d -> dict_get d "setup" = None ->
     extract_joke v = Raise (KeyError (SubStr "setup")))
  /\ (forall d a, v = JObj d -> dict_get d "setup" = Some a ->
        dict_get d "punchline" = None ->
        extract_joke v = Raise (KeyError (SubStr "punchline")))
  /\ ((forall d, v <> JObj d) -> extract_joke v = Raise TypeError).
Proof.
  split; [ | split].
  - intros d -> Hs. now rewrite extract_joke_obj, Hs.
  - intros d a -> Hs Hp. now rewrite extract_joke_obj, Hs, Hp.
  - apply extract_joke_not_obj.
Qed.

Lemma get_joke_log (log : list event) :
  snd (get_joke log) = log ++ [HttpGet random_joke_url].
Proof.
  run_handler. fold random_joke_url.
  destruct (requests_get log random_joke_url) as [resp|e]; simpl;
    [destruct (response_json resp) | ]; reflexivity.
Qed.

(** Whatever the upstream answers (a joke, something malformed, a
    failure), each fetching handler makes exactly one GET, to its own
    endpoint: nothing is retried and no second request follows.
    [get_consistent_joke] makes none. *)
Theorem handlers_make_exactly_one_get (log : list event) :
  snd (get_joke log) = log ++ [HttpGet random_joke_url]
  /\ (forall id,
        snd (get_joke_by_id id log) = log ++ [HttpGet (joke_by_id_url id)])
  /\ (forall joke_type,
        snd (get_joke_by_type joke_type log)
        = log ++ [HttpGet (joke_by_type_url joke_type)])
  /\ snd (get_consistent_joke log) = log.
Proof.
  split; [apply get_joke_log | split; [ | split]].
  - intros id. apply get_joke_by_id_log.
  - intros joke_type. apply get_joke_by_type_log.
  - reflexivity.
Qed.

(** An exception of [requests.get] or of [response.json()] is the
    handler's outcome, unchanged: no handler catches it, replaces it by a
    default or goes on to the extraction. *)
Theorem upstream_failure_propagates (e : pyexn) (log : list event) :
  (requests_get log random_joke_url = Raise e ->
   fst (get_joke log) = Raise e)
  /\ (forall id,
        requests_get log (joke_by_id_url id) = Raise e ->
        fst (get_joke_by_id id log) = Raise e)
  /\ (forall joke_type,
        requests_get log (joke_by_type_url joke_type) = Raise e ->
        fst (get_joke_by_type joke_type log) = Raise e)
  /\ (forall resp,
        requests_get log random_joke_url = Ok resp ->
        response_json resp = Raise e ->
        fst (get_joke log) = Raise e)
  /\ (forall id resp,
        requests_get log (joke_by_id_url id) = Ok resp ->
        response_json resp = Raise e ->
        fst (get_joke_by_id id log) = Raise e)
  /\ (forall joke_type resp,
        requests_get log (joke_by_type_url joke_type) = Ok resp ->
        response_json resp = Raise e ->
        fst (get_joke_by_type joke_type log) = Raise e).
Proof.
  repeat split.
  - intros H. run_handler. fold random_joke_url. now rewrite H.
  - intros id H. run_handler. fold (joke_by_id_url id). now rewrite H.
  - intros joke_type H. run_handler. fold (joke_by_type_url joke_type).
    now rewrite H.
  - intros resp H1 H2. run_handler. fold random_joke_url.
    now rewrite H1, H2.
  - intros id resp H1 H2. run_handler. fold (joke_by_id_url id).
    now rewrite H1, H2.
  - intros joke_type resp H1 H2. run_handler.
    fold (joke_by_type_url joke_type). now rewrite H1, H2.
Qed.

Lemma getitem_first (joke : json) (rest : list json) :
  getitem (JArr (joke :: rest)) (SubInt 0) = Ok joke.
Proof.
  unfold getitem, norm_index.
  replace (0 <? 0) with false by reflexivity.
  replace (0 <=? 0) with true by reflexivity.
  assert (H : (0 <? Z.of_nat (length (joke :: rest))) = true).
  { apply Z.ltb_lt. simpl length. lia. }
  rewrite H. reflexivity.
Qed.

(** [get_joke_by_type] reads element 0 of the response and nothing
    after it: whatever follows the first joke in the array, the outcome is
    the extraction of the first. *)
Theorem get_joke_by_type_ignores_rest (joke_type : string)
    (log : list event) (resp : Response) (joke : json) (rest : list json) :
  requests_get log (joke_by_type_url joke_type) = Ok resp ->
  response_json resp = Ok (JArr (joke :: rest)) ->
  get_joke_by_type joke_type log
  = (extract_joke joke, log ++ [HttpGet (joke_by_type_url joke_type)]).
Proof.
  intros Hget Hjson.
  rewrite (get_joke_by_type_run joke_type log resp _ Hget Hjson).
  now rewrite getitem_first.
Qed.

(** When the per-type endpoint answers with an object instead of an
    array, [get_joke_by_type] raises [KeyError(0)], even when the object
    is a joke with both fields: an object is subscripted by key, and [0]
    is no key of a decoded object. *)
Theorem get_joke_by_type_object_response_raises (joke_type : string)
    (log : list event) (resp : Response) (d : list (string * json)) :
  requests_get log (joke_by_type_url joke_type) = Ok resp ->
  response_json resp = Ok (JObj d) ->
  get_joke_by_type joke_type log
  = (Raise (KeyError (SubInt 0)),
     log ++ [HttpGet (joke_by_type_url joke_type)]).
Proof.
  intros Hget Hjson.
  now rewrite (get_joke_by_type_run joke_type log resp _ Hget Hjson).
Qed.

(** The argument can be read off the requested URL: two ids are
    requested at the same per-id URL only when they are equal, and
    likewise two types at the same per-type URL. *)
Theorem joke_urls_determine_argument :
  (forall id1 id2, joke_by_id_url id1 = joke_by_id_url id2 -> id1 = id2)
  /\ (forall t1 t2, joke_by_type_url t1 = joke_by_type_url t2 -> t1 = t2).
Proof.
  unfold joke_by_id_url, joke_by_type_url. split.
  - intros id1 id2 H.
    apply append_inj_prefix, append_inj_prefix in H.
    now apply str_of_int_inj.
  - intros t1 t2 H.
    apply append_inj_prefix, append_inj_prefix in H.
    now apply append_inj_suffix in H.
Qed.
End Server.

(** ** A mocked upstream, and the claims at concrete inputs *)

(** An upstream that answers every GET with the same decoded body; the
    response object is the body itself. *)
Definition mock_requests_get (body : json) :
    list event -> string -> result json :=
  fun _ _ => Ok body.

Definition mock_response_json : json -> result json := Ok.

(** A stand-in for [str()] on values that are not strings; the mocked
    jokes below have string fields, so it is never consulted. *)
Definition mock_py_str : json -> string := fun _ => "".

(** [{"setup": "Why?", "punchline": "Because."}] *)
Definition why_because : list (string * json) :=
  [("setup", JStr "Why?"); ("punchline", JStr "Because.")].

(** [{"setup": "S", "punchline": "P"}] *)
Definition s_p : list (string * json) :=
  [("setup", JStr "S"); ("punchline", JStr "P")].

(** [{"type": "error", "message": "joke not found"}]: no [setup], no
    [punchline]. *)
Definition not_found : json :=
  JObj [("type", JStr "error"); ("message", JStr "joke not found")].

(** [{"setup": "Why?"}]: the punchline is missing. *)
Definition no_punchline : json :=
  JObj [("setup", JStr "Why?")].

Lemma missing_field_is_malformed_response_witness :
  missing_field no_punchline
  /\ (exists e,
        get_joke (mock_requests_get no_punchline) mock_response_json
          mock_py_str []
        = (Raise e, [HttpGet "https://official-joke-api.appspot.com/random_joke"])
        /\ error_kind e = MalformedResponse)
  /\ (exists e,
        get_joke_by_type (mock_requests_get (JArr [not_found]))
          mock_response_json mock_py_str "dad" []
        = (Raise e,
           [HttpGet "https://official-joke-api.appspot.com/jokes/dad/random"])
        /\ error_kind e = MalformedResponse).
Proof.
  split; [right; reflexivity | split].
  - destruct (missing_field_is_malformed_response
                (mock_requests_get no_punchline) mock_response_json
                mock_py_str no_punchline (or_intror eq_refl))
      as (_ & Hjoke & _).
    exact (Hjoke [] no_punchline eq_refl eq_refl).
  - destruct (missing_field_is_malformed_response
                (mock_requests_get (JArr [not_found])) mock_response_json
                mock_py_str not_found (or_introl eq_refl))
      as (_ & _ & _ & Htype).
    exact (Htype "dad" [] (JArr [not_found]) (JArr [not_found])
             eq_refl eq_refl eq_refl).
Defined.

Lemma get_joke_by_id_range_checked_witness :
  (exists e,
     tool_get_joke_by_id (mock_requests_get (JObj why_because))
       mock_response_json mock_py_str 452 []
     = (Raise e, [])
     /\ error_kind e = InvalidArgument)
  /\ (exists e,
        tool_get_joke_by_id (mock_requests_get (JObj why_because))
          mock_response_json mock_py_str 0 []
        = (Raise e, [])
        /\ error_kind e = InvalidArgument)
  /\ snd (tool_get_joke_by_id (mock_requests_get (JObj why_because))
            mock_response_json mock_py_str 451 [])
     = [HttpGet "https://official-joke-api.appspot.com/jokes/451"].
Proof.
  split; [ | split].
  - apply (get_joke_by_id_range_checked
             (mock_requests_get (JObj why_because)) mock_response_json
             mock_py_str 452 []).
    lia.
  - apply (get_joke_by_id_range_checked
             (mock_requests_get (JObj why_because)) mock_response_json
             mock_py_str 0 []).
    lia.
  - apply (get_joke_by_id_range_checked
             (mock_requests_get (JObj why_because)) mock_response_json
             mock_py_str 451 []).
    lia.
Defined.

Lemma get_joke_by_type_enum_checked_witness :
  (exists e,
     tool_get_joke_by_type (mock_requests_get (JArr [JObj s_p]))
       mock_response_json mock_py_str "Dad" []
     = (Raise e, [])
     /\ error_kind e = InvalidArgument)
  /\ tool_get_joke_by_type (mock_requests_get (JArr [JObj s_p]))
       mock_response_json mock_py_str "dad" []
     = get_joke_by_type (mock_requests_get (JArr [JObj s_p]))
         mock_response_json mock_py_str "dad" [].
Proof.
  split.
  - apply (get_joke_by_type_enum_checked
             (mock_requests_get (JArr [JObj s_p])) mock_response_json
             mock_py_str "Dad" []).
    apply (bool_decide_unpack _). vm_compute. exact I.
  - apply (get_joke_by_type_enum_checked
             (mock_requests_get (JArr [JObj s_p])) mock_response_json
             mock_py_str "dad" []).
    apply (bool_decide_unpack _). vm_compute. exact I.
Defined.

Lemma joke_is_setup_newline_punchline_witness :
  get_joke (mock_requests_get (JObj why_because)) mock_response_json
    mock_py_str []
  = (Ok ("Why?" +:+ LF +:+ "Because."),
     [HttpGet "https://official-joke-api.appspot.com/random_joke"])
  /\ get_joke_by_id (mock_requests_get (JObj why_because))
       mock_response_json mock_py_str 1 []
     = (Ok ("Why?" +:+ LF +:+ "Because."),
        [HttpGet "https://official-joke-api.appspot.com/jokes/1"]).
Proof.
  destruct (joke_is_setup_newline_punchline
              (mock_requests_get (JObj why_because)) mock_response_json
              mock_py_str why_because "Why?" "Because." eq_refl eq_refl)
    as (_ & Hjoke & Hid).
  split.
  - exact (Hjoke [] (JObj why_because) eq_refl eq_refl).
  - exact (Hid 1 [] (JObj why_because) eq_refl eq_refl).
Defined.

Lemma get_joke_by_type_extracts_first_witness :
  get_joke_by_type (mock_requests_get (JArr [JObj s_p])) mock_response_json
    mock_py_str "dad" []
  = (Ok ("S" +:+ LF +:+ "P"),
     [HttpGet "https://official-joke-api.appspot.com/jokes/dad/random"]).
Proof.
  destruct (get_joke_by_type_extracts_first
              (mock_requests_get (JArr [JObj s_p])) mock_response_json
              mock_py_str "dad" [] (JArr [JObj s_p]) (JObj s_p)
              eq_refl eq_refl)
    as (_ & Hstr).
  exact (Hstr s_p "S" "P" eq_refl eq_refl eq_refl).
Defined.

Lemma get_joke_by_type_empty_array_raises_witness :
  get_joke_by_type (mock_requests_get (JArr [])) mock_response_json
    mock_py_str "general" []
  = (Raise IndexError,
     [HttpGet "https://official-joke-api.appspot.com/jokes/general/random"]).
Proof.
  exact (proj2 (get_joke_by_type_empty_array_raises
                  (mock_requests_get (JArr [])) mock_response_json
                  mock_py_str "general" [] (JArr []) eq_refl eq_refl)).
Defined.

(** [{"id": 7, "punchline": "Because.", "type": "general", "setup":
    "Why?"}]: the joke of [why_because] with the upstream's [id] and
    [type] fields beside it, in another order. *)
Definition why_because_full : list (string * json) :=
  [("id", JInt 7); ("punchline", JStr "Because.");
   ("type", JStr "general"); ("setup", JStr "Why?")].

Lemma extract_joke_reads_two_fields_only_witness :
  extract_joke mock_py_str (JObj why_because_full)
  = extract_joke mock_py_str (JObj why_because).
Proof.
  exact (extract_joke_reads_two_fields_only mock_py_str why_because_full
           why_because eq_refl eq_refl).
Defined.

(** The same jokes, evaluated. *)
Example get_joke_why_because :
  fst (get_joke (mock_requests_get (JObj why_because)) mock_response_json
         mock_py_str [])
  = Ok "Why?
Because.".
Proof. reflexivity. Qed.

Example get_joke_not_found :
  fst (get_joke_by_id (mock_requests_get not_found) mock_response_json
         mock_py_str 452 [])
  = Raise (KeyError (SubStr "setup")).
Proof. reflexivity. Qed.

Example get_consistent_joke_constant (log : list event) :
  get_consistent_joke log
  = (Ok "What's brown and sticky?
A stick! Ha ha ha ha", log).
Proof. reflexivity. Qed.

(** ** The further properties at concrete inputs *)

(** An upstream that cannot be reached. *)
Definition unreachable_get : list event -> string -> result json :=
  fun _ _ => Raise (RequestException "connection refused").

Lemma extract_joke_failure_modes_witness :
  extract_joke mock_py_str not_found = Raise (KeyError (SubStr "setup"))
  /\ extract_joke mock_py_str no_punchline
     = Raise (KeyError (SubStr "punchline"))
  /\ extract_joke mock_py_str (JArr [JObj why_because]) = Raise TypeError.
Proof.
  split; [ | split].
  - exact (proj1 (extract_joke_failure_modes mock_py_str not_found)
             _ eq_refl eq_refl).
  - exact (proj1 (proj2 (extract_joke_failure_modes mock_py_str
                           no_punchline))
             _ (JStr "Why?") eq_refl eq_refl eq_refl).
  - apply (extract_joke_failure_modes mock_py_str (JArr [JObj why_because])).
    intros d. discriminate.
Defined.

Lemma upstream_failure_propagates_witness :
  fst (get_joke unreachable_get mock_response_json mock_py_str [])
  = Raise (RequestException "connection refused")
  /\ fst (get_joke_by_type unreachable_get mock_response_json mock_py_str
            "dad" [])
     = Raise (RequestException "connection refused").
Proof.
  destruct (upstream_failure_propagates unreachable_get mock_response_json
              mock_py_str (RequestException "connection refused") [])
    as (Hjoke & _ & Htype & _).
  split; [exact (Hjoke eq_refl) | exact (Htype "dad" eq_refl)].
Defined.

Lemma get_joke_by_type_ignores_rest_witness :
  get_joke_by_type
    (mock_requests_get (JArr [JObj s_p; not_found; JNull]))
    mock_response_json mock_py_str "dad" []
  = (Ok ("S" +:+ LF +:+ "P"),
     [HttpGet "https://official-joke-api.appspot.com/jokes/dad/random"]).
Proof.
  exact (get_joke_by_type_ignores_rest
           (mock_requests_get (JArr [JObj s_p; not_found; JNull]))
           mock_response_json mock_py_str "dad" []
           (JArr [JObj s_p; not_found; JNull]) (JObj s_p) [not_found; JNull]
           eq_refl eq_refl).
Defined.

Lemma get_joke_by_type_object_response_raises_witness :
  get_joke_by_type (mock_requests_get (JObj s_p)) mock_response_json
    mock_py_str "dad" []
  = (Raise (KeyError (SubInt 0)),
     [HttpGet "https://official-joke-api.appspot.com/jokes/dad/random"]).
Proof.
  exact (get_joke_by_type_object_response_raises
           (mock_requests_get (JObj s_p)) mock_response_json mock_py_str
           "dad" [] (JObj s_p) s_p eq_refl eq_refl).
Defined.

End Jokes.

(* ================================================================== *)
(** * workshops/deepl-simple-python/deepl-simple.py *)
(* ================================================================== *)

Module DeeplSimple.
Import Py.

(** [FORMALITY_TYPES = Literal["less", "more", "default", "prefer_less",
    "prefer_more"]] *)
Definition FORMALITY_TYPES : list string :=
  ["less"; "more"; "default"; "prefer_less"; "prefer_more"].

(** [os.environ.get("DEEPL_API_KEY")]: the value of the variable, or
    [None] when the environment does not define it.  Unlike
    [os.environ[...]], [get] never raises. *)
Definition DEEPL_API_KEY (environ : gmap string string) : option string :=
  environ !! "DEEPL_API_KEY".

(** The outbound calls of this file: the three methods of the vendor's
    client the tools use, with the arguments they are given. *)
Inductive event : Type :=
| CallGetSourceLanguages
| CallGetTargetLanguages
| CallTranslateText (text target_lang : string) (formality : option string).

Section Server.
(** The vendor SDK is outside the repository.  [Client] is the type of
    its client object and [DeepLClient] its constructor, which may raise;
    [TextResult] is what a translation returns, of which the code reads
    the attribute [text] only; [Language] is a language descriptor and
    [vars] Python's built-in that gives the attributes of an object as a
    [dict], kept as its items in order like every [dict] here. *)
Context {Client TextResult Language : Type}.
Variable DeepLClient : option string -> result Client.
Variable TextResult_text : TextResult -> string.
Variable vars : Language -> list (string * json).

(** The methods of the client, answering after the calls of a log. *)
Variable sdk_get_source_languages : list event -> result (list Language).
Variable sdk_get_target_languages : list event -> result (list Language).
Variable sdk_translate_text :
  list event -> string -> string -> option string -> result TextResult.

(** The statements the module runs when it is loaded:
    [[
DEEPL_API_KEY = os.environ.get("DEEPL_API_KEY")
deepl_client = deepl.DeepLClient(DEEPL_API_KEY)
    ]]
    The client is built before any tool is served, from whatever the
    lookup gave. *)
Definition deepl_client (environ : gmap string string) : result Client :=
  DeepLClient (DEEPL_API_KEY environ).

(** [[
def translate_dude() -> str:
    return "dude"
    ]] *)
Definition translate_dude : M event string :=
  ret "dude".

(** [[
async def get_source_languages() -> list[dict]:
    return [vars(lang) for lang in deepl_client.get_source_languages()]
    ]] *)
Definition get_source_languages :
    M event (list (list (string * json))) :=
  do! langs :=
    (fun log => outbound CallGetSourceLanguages
                  (sdk_get_source_languages log) log) in
  ret (map vars langs).

(** [[
def get_target_languages() -> list[dict]:
    return [vars(lang) for lang in deepl_client.get_target_languages()]
    ]] *)
Definition get_target_languages :
    M event (list (list (string * json))) :=
  do! langs :=
    (fun log => outbound CallGetTargetLanguages
                  (sdk_get_target_languages log) log) in
  ret (map vars langs).

(** [[
def translate_text(text, targetLang, formality = None) -> str:
    result = deepl_client.translate_text(text, target_lang=targetLang,
                                         formality=formality)
    return result.text
    ]]
    An absent [formality] is the default [None]. *)
Definition translate_text (text targetLang : string)
    (formality : option string) : M event string :=
  do! result :=
    (fun log => outbound (CallTranslateText text targetLang formality)
                  (sdk_translate_text log text targetLang formality) log) in
  ret (TextResult_text result).

(** ** What the module does when it is loaded *)

(** Without the variable the lookup gives [None], and the constructor is
    called with it as the module loads: whether the process starts is then
    the constructor's answer to [None], which the repository does not
    hold. *)
Lemma deepl_client_without_key (environ : gmap string string) :
  environ !! "DEEPL_API_KEY" = None ->
  deepl_client environ = DeepLClient None.
Proof. intros H. unfold deepl_client, DEEPL_API_KEY. now rewrite H. Qed.

(** ** The claims about the translation server *)

(** C7.  [translate_text] makes one vendor call, with [text], with
    [targetLang] as [target_lang] and with [formality] as it was given
    ([None] when absent).  When the vendor answers with a result, the
    return value is exactly that result's [text]: nothing else of the
    result reaches the caller.  A vendor failure is the handler's
    failure. *)
Theorem translate_text_forwards_and_returns_text (text targetLang : string)
    (formality : option string) (log : list event) :
  snd (translate_text text targetLang formality log)
  = log ++ [CallTranslateText text targetLang formality]
  /\ fst (translate_text text targetLang formality log)
     = match sdk_translate_text log text targetLang formality with
       | Ok result => Ok (TextResult_text result)
       | Raise e => Raise e
       end.
Proof.
  unfold translate_text, bind, outbound, ret.
  destruct (sdk_translate_text log text targetLang formality);
    split; reflexivity.
Qed.

(** C8.  [translate_dude()] returns exactly ["dude"] whatever was called
    before, and leaves the log of outbound calls as it was. *)
Theorem translate_dude_returns_dude (log : list event) :
  translate_dude log = (Ok "dude", log).
Proof. reflexivity. Qed.

(** ** Further properties of the translation server *)

(** The two listing tools return one mapping per language the vendor
    listed, in the vendor's order: the mapping at each position is [vars]
    of the language at that position, and an empty listing gives an empty
    list. *)
Theorem language_listing_keeps_order (log : list event)
    (langs : list Language) :
  (sdk_get_source_languages log = Ok langs ->
   exists dicts,
     get_source_languages log = (Ok dicts, log ++ [CallGetSourceLanguages])
     /\ length dicts = length langs
     /\ forall i : nat, dicts !! i = vars <$> langs !! i)
  /\ (sdk_get_target_languages log = Ok langs ->
      exists dicts,
        get_target_languages log
        = (Ok dicts, log ++ [CallGetTargetLanguages])
        /\ length dicts = length langs
        /\ forall i : nat, dicts !! i = vars <$> langs !! i).
Proof.
  split; intros H; exists (map vars langs);
    (split; [ | split; [apply length_map | intros i; apply list_lookup_fmap]]).
  - unfold get_source_languages, bind, outbound, ret. now rewrite H.
  - unfold get_target_languages, bind, outbound, ret. now rewrite H.
Qed.

(** Each listing tool makes exactly one vendor call, the listing of its
    own side, whatever the vendor answers; a vendor failure is the tool's
    outcome, unchanged. *)
Theorem language_tools_call_once (log : list event) :
  snd (get_source_languages log) = log ++ [CallGetSourceLanguages]
  /\ snd (get_target_languages log) = log ++ [CallGetTargetLanguages]
  /\ (forall e,
        sdk_get_source_languages log = Raise e ->
        fst (get_source_languages log) = Raise e)
  /\ (forall e,
        sdk_get_target_languages log = Raise e ->
        fst (get_target_languages log) = Raise e).
Proof.
  unfold get_source_languages, get_target_languages, bind, outbound, ret.
  repeat split.
  - destruct (sdk_get_source_languages log); reflexivity.
  - destruct (sdk_get_target_languages log); reflexivity.
  - intros e H. now rewrite H.
  - intros e H. now rewrite H.
Qed.

(** The client is built from the variable [DEEPL_API_KEY] alone: setting
    or changing any other variable of the environment changes nothing; a
    value that is set reaches the constructor as it is, the empty string
    included; with the variable removed the constructor gets [None]. *)
Theorem deepl_client_reads_only_api_key (environ : gmap string string) :
  (forall k v, k <> "DEEPL_API_KEY" ->
     deepl_client (<[k := v]> environ) = deepl_client environ)
  /\ (forall key,
        deepl_client (<["DEEPL_API_KEY" := key]> environ)
        = DeepLClient (Some key))
  /\ deepl_client (delete "DEEPL_API_KEY" environ) = DeepLClient None.
Proof.
  unfold deepl_client, DEEPL_API_KEY. repeat split.
  - intros k v Hk. now rewrite lookup_insert_ne.
  - intros key. now rewrite lookup_insert_eq.
  - now rewrite lookup_delete_eq.
Qed.
End Server.

(** ** A mocked vendor, and the tools at concrete inputs *)

(** A result object with more than its text. *)
Record MockTextResult : Type := mkMockTextResult {
  text : string;
  detected_source_lang : string;
  billed_characters : Z
}.

(** A vendor that translates into German, informally on request. *)
Definition mock_translate_text :
    list event -> string -> string -> option string ->
    result MockTextResult :=
  fun _ text target_lang formality =>
    if bool_decide (target_lang = "de") then
      match formality with
      | Some "less" => Ok (mkMockTextResult "Hallo, du" "EN" (Z.of_nat (String.length text)))
      | _ => Ok (mkMockTextResult "Hallo" "EN" (Z.of_nat (String.length text)))
      end
    else Raise (DeepLException "target_lang not supported").

Example translate_text_hello :
  translate_text text mock_translate_text "Hello" "de" None []
  = (Ok "Hallo", [CallTranslateText "Hello" "de" None]).
Proof. reflexivity. Qed.

Example translate_text_formality_forwarded :
  translate_text text mock_translate_text "Hello" "de" (Some "more") []
  = (Ok "Hallo", [CallTranslateText "Hello" "de" (Some "more")])
  /\ translate_text text mock_translate_text "Hello" "de" (Some "less") []
     = (Ok "Hallo, du", [CallTranslateText "Hello" "de" (Some "less")]).
Proof. split; reflexivity. Qed.

Example translate_text_vendor_failure :
  translate_text text mock_translate_text "Hello" "xx" None []
  = (Raise (DeepLException "target_lang not supported"),
     [CallTranslateText "Hello" "xx" None]).
Proof. reflexivity. Qed.

(** ** The further properties at concrete inputs *)

(** A language descriptor with a code and a name. *)
Record MockLanguage : Type := mkMockLanguage {
  code : string;
  name : string
}.

Definition mock_vars (lang : MockLanguage) : list (string * json) :=
  [("code", JStr (code lang)); ("name", JStr (name lang))].

Definition mock_languages : list MockLanguage :=
  [mkMockLanguage "DE" "German"; mkMockLanguage "EN" "English"].

Definition mock_get_languages :
    list event -> result (list MockLanguage) :=
  fun _ => Ok mock_languages.

Lemma language_listing_keeps_order_witness :
  exists dicts,
    get_source_languages mock_vars mock_get_languages []
    = (Ok dicts, [CallGetSourceLanguages])
    /\ length dicts = 2%nat
    /\ forall i : nat, dicts !! i = mock_vars <$> mock_languages !! i.
Proof.
  exact (proj1 (language_listing_keeps_order mock_vars mock_get_languages
                  mock_get_languages [] mock_languages)
           eq_refl).
Defined.

End DeeplSimple.
